(** * Neuralynx agents: request adaptation, prompt synthesis and fallback

    A shallow embedding of the four assistants under [neuralnyx-agents/]
    (business-query-generator, content-generator, content-optimization,
    domain-analyzer).  Every assistant has the same shape: the entrypoint
    [agent_invocation] adapts the inbound payload, [main] renders a prompt
    and awaits the external runner, and the entrypoint wraps the answer in
    [{"result": ...}] or, when an exception reaches its [try], in a static
    fallback envelope.

    Python values are modelled by [Py.value]; Python exceptions by the
    error monad [Py.result].  The external agent runtime ([Runner.run]) is
    a parameter of each handler: a function from the prompt text to either
    a validated output object or a raised exception; a handler awaits it
    at most once, so a function of the prompt covers every answer the
    runtime can give to a call.  Logging is not modelled (it neither
    raises on the values below nor affects results), and neither are
    signals outside [Exception], such as task cancellation. *)

From Stdlib Require Import String Ascii List Bool NArith ZArith Lia.
From Stdlib Require Import DecimalString.
Import ListNotations.
Open Scope string_scope.
Set Warnings "-register-all".

(** ** Python values, exceptions and the builtins the handlers use *)

Module Py.

(** JSON-like Python values.  A [dict] is an association list with string
    keys in insertion order (the order matters to [str]); floats are left
    out.  Characters are the code points below 256. *)
Inductive value : Type :=
| VNone
| VBool (b : bool)
| VInt (z : Z)
| VStr (s : string)
| VList (l : list value)
| VDict (d : list (string * value)).

(** The exceptions of the model.  All three are subclasses of [Exception],
    so an [except Exception] clause catches each of them;
    [AgentException] stands for whatever [Runner.run] raises (transport
    errors, and outputs that fail validation against [output_type]). *)
Inductive exn : Type :=
| AttributeError (msg : string)
| TypeError (msg : string)
| AgentException (msg : string).

Inductive result (A : Type) : Type :=
| Ok (a : A)
| Raise (e : exn).
Arguments Ok {A} a.
Arguments Raise {A} e.

Definition bind {A B : Type} (m : result A) (k : A -> result B) : result B :=
  match m with
  | Ok a => k a
  | Raise e => Raise e
  end.

(** [try: m except Exception: h] *)
Definition try_except {A : Type} (m : result A) (h : exn -> result A) : result A :=
  match m with
  | Ok a => Ok a
  | Raise e => h e
  end.

Definition returns {A : Type} (m : result A) : bool :=
  match m with Ok _ => true | Raise _ => false end.

(** The name Python prints for the type of a value. *)
Definition type_name (v : value) : string :=
  match v with
  | VNone => "NoneType"
  | VBool _ => "bool"
  | VInt _ => "int"
  | VStr _ => "str"
  | VList _ => "list"
  | VDict _ => "dict"
  end.

Definition no_attribute (v : value) (attr : string) : exn :=
  AttributeError ("'" ++ type_name v ++ "' object has no attribute '" ++ attr ++ "'").

(** *** Dictionaries *)

Fixpoint lookup (k : string) (d : list (string * value)) : option value :=
  match d with
  | [] => None
  | (k', v) :: d' => if String.eqb k k' then Some v else lookup k d'
  end.

(** [d.get(k, default)] on a dict. *)
Definition dict_get (d : list (string * value)) (k : string) (default : value) : value :=
  match lookup k d with
  | Some v => v
  | None => default
  end.

(** [k in d] on a dict. *)
Definition dict_has (k : string) (d : list (string * value)) : bool :=
  match lookup k d with
  | Some _ => true
  | None => false
  end.

(** [v.get(k, default)] on any value: only dicts have the method. *)
Definition get (v : value) (k : string) (default : value) : result value :=
  match v with
  | VDict d => Ok (dict_get d k default)
  | _ => Raise (no_attribute v "get")
  end.

(** *** Strings *)

Definition nl : string := String "010"%char EmptyString.

Definition lower_char (c : ascii) : ascii :=
  let n := N_of_ascii c in
  if ((65 <=? n) && (n <=? 90))%N then ascii_of_N (n + 32)
  else if ((192 <=? n) && (n <=? 222) && negb (n =? 215))%N then ascii_of_N (n + 32)
  else c.

(** [s.lower()] on a str. *)
Fixpoint lower_str (s : string) : string :=
  match s with
  | EmptyString => EmptyString
  | String c s' => String (lower_char c) (lower_str s')
  end.

(** [v.lower()] on any value: only strs have the method. *)
Definition lower (v : value) : result string :=
  match v with
  | VStr s => Ok (lower_str s)
  | _ => Raise (no_attribute v "lower")
  end.

Fixpoint starts_with (needle hay : string) : bool :=
  match needle, hay with
  | EmptyString, _ => true
  | String _ _, EmptyString => false
  | String a needle', String b hay' => Ascii.eqb a b && starts_with needle' hay'
  end.

(** [needle in hay] on strs. *)
Fixpoint contains (needle hay : string) : bool :=
  starts_with needle hay ||
  match hay with
  | EmptyString => false
  | String _ hay' => contains needle hay'
  end.

Fixpoint has_char (c : ascii) (s : string) : bool :=
  match s with
  | EmptyString => false
  | String c' s' => Ascii.eqb c c' || has_char c s'
  end.

Definition hex_digit (n : N) : ascii :=
  if (n <? 10)%N then ascii_of_N (48 + n) else ascii_of_N (87 + n).

Definition hex_escape (n : N) : string :=
  String "\"%char (String "x"%char (String (hex_digit (n / 16)) (String (hex_digit (n mod 16)) EmptyString))).

Definition printable (n : N) : bool :=
  ((32 <=? n) && (n <? 127) || (161 <=? n) && negb (n =? 173))%N.

Definition squote : ascii := "'"%char.
Definition dquote : ascii := ascii_of_N 34.

Definition repr_char (quote c : ascii) : string :=
  let n := N_of_ascii c in
  if Ascii.eqb c quote || Ascii.eqb c "\"%char then String "\"%char (String c EmptyString)
  else if (n =? 9)%N then "\t"
  else if (n =? 10)%N then "\n"
  else if (n =? 13)%N then "\r"
  else if printable n then String c EmptyString
  else hex_escape n.

Fixpoint repr_chars (quote : ascii) (s : string) : string :=
  match s with
  | EmptyString => EmptyString
  | String c s' => repr_char quote c ++ repr_chars quote s'
  end.

(** [repr(s)] on a str: single quotes, unless the text has a single quote
    and no double quote. *)
Definition repr_str (s : string) : string :=
  let quote := if has_char squote s && negb (has_char dquote s) then dquote else squote in
  String quote (repr_chars quote s ++ String quote EmptyString).

Definition str_int (z : Z) : string := NilZero.string_of_int (Z.to_int z).

Fixpoint join_strs (sep : string) (l : list string) : string :=
  match l with
  | [] => EmptyString
  | [s] => s
  | s :: l' => s ++ sep ++ join_strs sep l'
  end.

(** [repr(v)]: containers render their items with [repr]. *)
Fixpoint repr (v : value) : string :=
  match v with
  | VNone => "None"
  | VBool true => "True"
  | VBool false => "False"
  | VInt z => str_int z
  | VStr s => repr_str s
  | VList l => "[" ++ join_strs ", " (map repr l) ++ "]"
  | VDict d =>
      "{" ++ join_strs ", " (map (fun kv => repr_str (fst kv) ++ ": " ++ repr (snd kv)) d) ++ "}"
  end.

(** [str(v)], which is what an f-string field [{v}] renders: a str is
    itself, every other value is its [repr]. *)
Definition str (v : value) : string :=
  match v with
  | VStr s => s
  | _ => repr v
  end.

Fixpoint chars (s : string) : list string :=
  match s with
  | EmptyString => []
  | String c s' => String c EmptyString :: chars s'
  end.

Fixpoint all_strs (l : list value) : option (list string) :=
  match l with
  | [] => Some []
  | VStr s :: l' =>
      match all_strs l' with
      | Some ss => Some (s :: ss)
      | None => None
      end
  | _ :: _ => None
  end.

(** [sep.join(v)]: [v] is iterated (a list yields its items, a str its
    characters, a dict its keys) and every item must be a str. *)
Definition join (sep : string) (v : value) : result string :=
  match v with
  | VList l =>
      match all_strs l with
      | Some ss => Ok (join_strs sep ss)
      | None => Raise (TypeError "sequence item: expected str instance")
      end
  | VStr s => Ok (join_strs sep (chars s))
  | VDict d => Ok (join_strs sep (map fst d))
  | _ => Raise (TypeError "can only join an iterable")
  end.

(** *** Objects returned by the runner *)

(** What [main] hands back: an instance of the assistant's pydantic model
    (which has [model_dump]) or a plain value (which has not). *)
Inductive object (M : Type) : Type :=
| Model (m : M)
| Plain (v : value).
Arguments Model {M} m.
Arguments Plain {M} v.

Definition envelope (v : value) : value := VDict [("result", v)].

End Py.

Export Py.

Declare Scope py_scope.
Delimit Scope py_scope with py.
Notation "x <- m ;; k" := (bind m (fun x => k))
  (at level 61, m at next level, right associativity) : py_scope.
Open Scope py_scope.

(** ** business-query-generator/app.py *)

Module BusinessQuery.

(** [class UserQueriesOutput(BaseModel)] *)
Record UserQueriesOutput : Type := { queries : list string }.

Definition model_dump (o : UserQueriesOutput) : value :=
  VDict [("queries", VList (map VStr (queries o)))].

(** [Runner.run(agent, query)] followed by [.final_output]: with
    [output_type=UserQueriesOutput] the runtime hands back an instance of
    the model or raises. *)
Definition Runner : Type := string -> result UserQueriesOutput.

Definition sample_business_data : value :=
  VDict [("summary", VStr "A sample business that provides services");
         ("goals", VStr "Appear in ChatGPT/LLM results for relevant searches");
         ("existingKeywords", VStr "business services, consulting");
         ("domain", VStr "example.com")].

(** The f-string of [main] (lines 74-82). *)
Definition query (business_data : value) : result string :=
  summary <- get business_data "summary" (VStr EmptyString) ;;
  goals <- get business_data "goals" (VStr EmptyString) ;;
  existingKeywords <- get business_data "existingKeywords" (VStr EmptyString) ;;
  domain <- get business_data "domain" (VStr EmptyString) ;;
  Ok ("BUSINESS SUMMARY: " ++ str summary ++ nl ++
      nl ++
      "GOALS: " ++ str goals ++ nl ++
      nl ++
      "EXISTING KEYWORDS: " ++ str existingKeywords ++ nl ++
      nl ++
      "DOMAIN: " ++ str domain ++ nl ++
      nl ++
      "Please generate 10 new user queries that would help this business appear in LLM search results.").

Definition main (run : Runner) (business_data : value) : result (object UserQueriesOutput) :=
  let business_data :=
    match business_data with VNone => sample_business_data | _ => business_data end in
  q <- query business_data ;;
  try_except (result <- run q ;; Ok (Model result)) (fun e => Raise e).

(** The dict built from the payload before the [try] (lines 109-114). *)
Definition business_data_of (payload : value) : result value :=
  summary <- get payload "summary" (VStr EmptyString) ;;
  goals <- get payload "goals" (VStr EmptyString) ;;
  existingKeywords <- get payload "existingKeywords" (VStr EmptyString) ;;
  domain <- get payload "domain" (VStr "example.com") ;;
  Ok (VDict [("summary", summary); ("goals", goals);
             ("existingKeywords", existingKeywords); ("domain", domain)]).

Definition fallback : value :=
  envelope (VDict [("queries",
    VList [VStr "error"; VStr "occurred"; VStr "during"; VStr "execution"; VStr "check";
           VStr "logs"; VStr "for"; VStr "details"; VStr "about"; VStr "failure"])]).

(** [hasattr(result, 'model_dump')] chooses between the two returns. *)
Definition wrap (result : object UserQueriesOutput) : value :=
  match result with
  | Model m => envelope (model_dump m)
  | Plain v => envelope v
  end.

Definition agent_invocation (run : Runner) (payload context : value) : result value :=
  business_data <- business_data_of payload ;;
  try_except (result <- main run business_data ;; Ok (wrap result))
             (fun _ => Ok fallback).

End BusinessQuery.

(** ** content-generator/app_content.py *)

Module ContentGenerator.

(** [class ContentOutput(BaseModel)] *)
Record ContentOutput : Type := {
  content : list string;
  platform : string;
  topics_covered : list string;
  content_type : string
}.

Definition model_dump (o : ContentOutput) : value :=
  VDict [("content", VList (map VStr (content o)));
         ("platform", VStr (platform o));
         ("topics_covered", VList (map VStr (topics_covered o)));
         ("content_type", VStr (content_type o))].

Definition Runner : Type := string -> result ContentOutput.

Definition sample_content_data : value :=
  VDict [("topics", VList [VStr "artificial intelligence"; VStr "sustainable technology"]);
         ("platform", VStr "reddit")].

(** The f-string of [main] (lines 122-135). *)
Definition query (content_data : value) : result string :=
  topics <- get content_data "topics" (VList []) ;;
  platform <- get content_data "platform" (VStr "reddit") ;;
  Ok ("TOPICS: " ++ str topics ++ nl ++
      nl ++
      "PLATFORM: " ++ str platform ++ nl ++
      nl ++
      "Please generate engaging, platform-optimized content for the provided topics. Make sure the content is:" ++ nl ++
      "- Appropriate for the " ++ str platform ++ " platform" ++ nl ++
      "- Engaging and shareable" ++ nl ++
      "- Relevant to the topics provided" ++ nl ++
      "- Ready to publish" ++ nl ++
      nl ++
      "Generate 2-3 pieces of content for the topics, optimized for " ++ str platform ++ ".").

Definition main (run : Runner) (content_data : value) : result (object ContentOutput) :=
  let content_data :=
    match content_data with VNone => sample_content_data | _ => content_data end in
  q <- query content_data ;;
  try_except (result <- run q ;; Ok (Model result)) (fun e => Raise e).

Definition ai_topics : value := VList [VStr "artificial intelligence"].
Definition sustainable_topics : value := VList [VStr "sustainable technology"].
Definition default_topics : value := VList [VStr "technology"; VStr "innovation"].

(** The "simple topic extraction" over the prompt text (lines 173-178). *)
Definition topics_of_prompt (prompt : value) : result value :=
  text <- lower prompt ;;
  if contains "ai" text || contains "artificial intelligence" text then Ok ai_topics
  else if contains "sustainable" text || contains "green" text then Ok sustainable_topics
  else Ok default_topics.

(** The dict built from the payload before the [try] (lines 162-189). *)
Definition content_data_of (payload : value) : result value :=
  match payload with
  | VDict d =>
      if dict_has "topics" d && dict_has "platform" d then
        Ok (VDict [("topics", dict_get d "topics" (VList []));
                   ("platform", dict_get d "platform" (VStr "reddit"))])
      else
        let prompt := dict_get d "prompt" (dict_get d "domain" (VStr "technology")) in
        topics <- topics_of_prompt prompt ;;
        Ok (VDict [("topics", topics); ("platform", VStr "reddit")])
  | _ =>
      Ok (VDict [("topics", default_topics); ("platform", VStr "reddit")])
  end.

Definition fallback : value :=
  envelope (VDict [("content", VList [VStr "Error occurred during content generation"]);
                   ("platform", VStr "unknown");
                   ("topics_covered", VList []);
                   ("content_type", VStr "error")]).

Definition wrap (result : object ContentOutput) : value :=
  match result with
  | Model m => envelope (model_dump m)
  | Plain v => envelope v
  end.

Definition agent_invocation (run : Runner) (payload context : value) : result value :=
  content_data <- content_data_of payload ;;
  try_except (result <- main run content_data ;; Ok (wrap result))
             (fun _ => Ok fallback).

End ContentGenerator.

(** ** content-optimization/content_optimize.py *)

Module ContentOptimization.

(** [class OptimizedContentOutput(BaseModel)] *)
Record OptimizedContentOutput : Type := { content : string }.

(** The mapping pydantic's [model_dump] gives for the model.  The handler
    never calls it; it is what the answer looks like as a JSON value. *)
Definition model_dump (o : OptimizedContentOutput) : value :=
  VDict [("content", VStr (content o))].

Definition Runner : Type := string -> result OptimizedContentOutput.

Definition sample_content_data : value :=
  VDict [("content", VStr "Sample blog content to optimize");
         ("title", VStr "Sample Title");
         ("meta", VStr "Sample meta description");
         ("topics", VList [VStr "sample"; VStr "topic"])].

(** The f-string of [main] (lines 82-95). *)
Definition query (content_data : value) : result string :=
  title <- get content_data "title" (VStr EmptyString) ;;
  meta <- get content_data "meta" (VStr EmptyString) ;;
  topics <- get content_data "topics" (VList []) ;;
  joined <- join ", " topics ;;
  body <- get content_data "content" (VStr EmptyString) ;;
  Ok ("Please optimize the following blog post content:" ++ nl ++
      nl ++
      "TITLE: " ++ str title ++ nl ++
      "META DESCRIPTION: " ++ str meta ++ nl ++
      "TOPICS: " ++ joined ++ nl ++
      nl ++
      "CONTENT TO OPTIMIZE:" ++ nl ++
      str body ++ nl ++
      nl ++
      "Please optimize this content for better readability, engagement, and SEO while maintaining the original message and tone. Focus on improving structure, flow, and incorporating the provided topics naturally throughout the content." ++ nl ++
      nl ++
      "IMPORTANT: Return the optimized content in MARKDOWN format with proper headings (# ## ###), emphasis (" ++ "**bold**, *italic*" ++ "), lists, and other markdown elements for better structure and readability." ++ nl ++
      nl ++
      "If you need additional information about any of the topics or want to ensure you're using the most current and accurate information, feel free to use web search to research the topics and enhance the content accordingly.").

(** [main] returns [result.final_output.content], the string alone. *)
Definition main (run : Runner) (content_data : value) : result value :=
  let content_data :=
    match content_data with VNone => sample_content_data | _ => content_data end in
  q <- query content_data ;;
  try_except (result <- run q ;; Ok (VStr (content result))) (fun e => Raise e).

(** The dict built from the payload before the [try] (lines 123-128). *)
Definition content_data_of (payload : value) : result value :=
  body <- get payload "content" (VStr EmptyString) ;;
  title <- get payload "title" (VStr EmptyString) ;;
  meta <- get payload "meta" (VStr EmptyString) ;;
  topics <- get payload "topics" (VList []) ;;
  Ok (VDict [("content", body); ("title", title); ("meta", meta); ("topics", topics)]).

Definition fallback : value :=
  envelope (VStr "Error occurred during content optimization. Please try again.").

Definition agent_invocation (run : Runner) (payload context : value) : result value :=
  content_data <- content_data_of payload ;;
  try_except (result <- main run content_data ;; Ok (envelope result))
             (fun _ => Ok fallback).

End ContentOptimization.

(** ** domain-analyzer/app.py *)

Module DomainAnalyzer.

(** [class BusinessSummaryOutput(BaseModel)] *)
Record BusinessSummaryOutput : Type := {
  summary : string;
  business_type : string;
  target_audience : string;
  key_services : list string;
  industry : string
}.

Definition model_dump (o : BusinessSummaryOutput) : value :=
  VDict [("summary", VStr (summary o));
         ("business_type", VStr (business_type o));
         ("target_audience", VStr (target_audience o));
         ("key_services", VList (map VStr (key_services o)));
         ("industry", VStr (industry o))].

Definition Runner : Type := string -> result BusinessSummaryOutput.

(** The f-string of [main] (lines 72-80). *)
Definition query (domain : value) : string :=
  "Please analyze the domain: " ++ str domain ++ nl ++
  nl ++
  "Use web search to research this domain thoroughly and provide a comprehensive business analysis including:" ++ nl ++
  "- What the business does and its main services/products" ++ nl ++
  "- The business type and industry" ++ nl ++
  "- Target audience" ++ nl ++
  "- Key services offered" ++ nl ++
  nl ++
  "Be thorough in your research and provide accurate information based on what you find.".

Definition main (run : Runner) (domain : value) : result (object BusinessSummaryOutput) :=
  let domain := match domain with VNone => VStr "example.com" | _ => domain end in
  try_except (result <- run (query domain) ;; Ok (Model result)) (fun e => Raise e).

(** [payload.get("domain", payload.get("prompt", "example.com"))], before
    the [try] (line 107): the inner call is evaluated first. *)
Definition domain_of (payload : value) : result value :=
  prompt <- get payload "prompt" (VStr "example.com") ;;
  get payload "domain" prompt.

Definition fallback : value :=
  envelope (VDict [("summary", VStr "Error occurred during domain analysis");
                   ("business_type", VStr "Unknown");
                   ("target_audience", VStr "Unknown");
                   ("key_services", VList [VStr "Error"]);
                   ("industry", VStr "Unknown")]).

Definition wrap (result : object BusinessSummaryOutput) : value :=
  match result with
  | Model m => envelope (model_dump m)
  | Plain v => envelope v
  end.

Definition agent_invocation (run : Runner) (payload context : value) : result value :=
  domain <- domain_of payload ;;
  try_except (result <- main run domain ;; Ok (wrap result))
             (fun _ => Ok fallback).

End DomainAnalyzer.

(** ** Vocabulary of the statements *)

(** The request the business-query adapter builds from a mapping. *)
Definition bq_adapted (d : list (string * value)) : list (string * value) :=
  [("summary", dict_get d "summary" (VStr EmptyString));
   ("goals", dict_get d "goals" (VStr EmptyString));
   ("existingKeywords", dict_get d "existingKeywords" (VStr EmptyString));
   ("domain", dict_get d "domain" (VStr "example.com"))].

(** The request the content-optimization adapter builds from a mapping. *)
Definition co_adapted (d : list (string * value)) : list (string * value) :=
  [("content", dict_get d "content" (VStr EmptyString));
   ("title", dict_get d "title" (VStr EmptyString));
   ("meta", dict_get d "meta" (VStr EmptyString));
   ("topics", dict_get d "topics" (VList []))].

(** The domain the domain-analysis adapter reads from a mapping. *)
Definition da_adapted (d : list (string * value)) : value :=
  dict_get d "domain" (dict_get d "prompt" (VStr "example.com")).

(** The domain [main] works with: [None] is replaced by the sample. *)
Definition effective (domain : value) : value :=
  match domain with VNone => VStr "example.com" | _ => domain end.

(** The text the topic extraction reads: the "prompt" value, else the
    "domain" value, else the word "technology". *)
Definition fallback_text (d : list (string * value)) : value :=
  dict_get d "prompt" (dict_get d "domain" (VStr "technology")).

(** The topic extraction in the words of the specification: one topic for
    "artificial intelligence", another for "sustainable", else the pair. *)
Definition topics_as_specified (text : string) : value :=
  if contains "artificial intelligence" (lower_str text) then ContentGenerator.ai_topics
  else if contains "sustainable" (lower_str text) then ContentGenerator.sustainable_topics
  else ContentGenerator.default_topics.

(** Two request mappings agree on the given fields. *)
Definition agree (fields : list string) (d1 d2 : list (string * value)) : Prop :=
  forall k, In k fields -> lookup k d1 = lookup k d2.

(** The runner of the witnesses below: every call ends in an exception. *)
Definition broken_runner {M : Type} : string -> result M :=
  fun _ => Raise (AgentException "connection reset").

(** ** Facts about the Python primitives *)

Module PyFacts.

Lemma starts_with_here (n b : string) : starts_with n (n ++ b) = true.
Proof.
  induction n as [|c n IH]; simpl; [reflexivity|].
  now rewrite Ascii.eqb_refl, IH.
Qed.

Lemma starts_with_split (n h : string) :
  starts_with n h = true -> exists b, h = n ++ b.
Proof.
  revert h; induction n as [|c n IH]; intros h H; simpl in *.
  - now exists h.
  - destruct h as [|c' h]; [discriminate|].
    apply andb_true_iff in H. destruct H as [Hc H].
    apply Ascii.eqb_eq in Hc. subst c'.
    destruct (IH _ H) as [b ->]. now exists b.
Qed.

Lemma contains_here (n b : string) : contains n (n ++ b) = true.
Proof.
  destruct (n ++ b) eqn:E; simpl; rewrite <- E, starts_with_here; reflexivity.
Qed.

Lemma contains_skip (n a h : string) :
  contains n h = true -> contains n (a ++ h) = true.
Proof.
  intros H; induction a as [|c a IH]; simpl.
  - exact H.
  - rewrite IH. apply orb_true_r.
Qed.

Lemma append_empty_r (s : string) : s ++ EmptyString = s.
Proof. induction s as [|c s IH]; simpl; [reflexivity | now rewrite IH]. Qed.

Lemma contains_last (n : string) : contains n n = true.
Proof. rewrite <- (append_empty_r n) at 2. apply contains_here. Qed.

Lemma contains_intro (n a b : string) : contains n (a ++ n ++ b) = true.
Proof. apply contains_skip, contains_here. Qed.

Lemma contains_split (n h : string) :
  contains n h = true -> exists a b, h = a ++ n ++ b.
Proof.
  induction h as [|c h IH]; simpl; intros H.
  - rewrite orb_false_r in H. destruct (starts_with_split _ _ H) as [b E].
    exists EmptyString, b. exact E.
  - apply orb_true_iff in H. destruct H as [H|H].
    + destruct (starts_with_split _ _ H) as [b E]. exists EmptyString, b. exact E.
    + destruct (IH H) as (a & b & ->). exists (String c a), b. reflexivity.
Qed.

Lemma append_assoc (a b c : string) : (a ++ b) ++ c = a ++ b ++ c.
Proof. induction a as [|x a IH]; simpl; [reflexivity | now rewrite IH]. Qed.

(** A text that contains [m] contains every piece of [m]. *)
Lemma contains_trans (n m h : string) :
  contains n m = true -> contains m h = true -> contains n h = true.
Proof.
  intros Hnm Hmh.
  destruct (contains_split _ _ Hnm) as (a & b & ->).
  destruct (contains_split _ _ Hmh) as (a' & b' & ->).
  rewrite !append_assoc. apply contains_skip, contains_intro.
Qed.

(** The word "sustainable" has the letters "ai" inside it. *)
Lemma sustainable_has_ai (text : string) :
  contains "sustainable" text = true -> contains "ai" text = true.
Proof. apply contains_trans. reflexivity. Qed.

Lemma all_strs_map (ss : list string) : all_strs (map VStr ss) = Some ss.
Proof. induction ss as [|s ss IH]; simpl; [reflexivity | now rewrite IH]. Qed.

Lemma get_dict (d : list (string * value)) (k : string) (default : value) :
  get (VDict d) k default = Ok (dict_get d k default).
Proof. reflexivity. Qed.

End PyFacts.

Import PyFacts.

(** Finds a field inside a rendered prompt. *)
Ltac find_field :=
  repeat first [ apply contains_here | apply contains_last | apply contains_skip ].

(** ** The handlers: adaptation, success and failure *)

Module BusinessQueryFacts.
Import BusinessQuery.

Lemma bq_adapt_dict (d : list (string * value)) :
  business_data_of (VDict d) = Ok (VDict (bq_adapted d)).
Proof. reflexivity. Qed.

Lemma bq_adapt_ok (payload bd : value) :
  business_data_of payload = Ok bd ->
  exists d, payload = VDict d /\ bd = VDict (bq_adapted d).
Proof.
  destruct payload; try discriminate.
  rewrite bq_adapt_dict. intros [= <-]. now exists d.
Qed.

Lemma bq_query_dict (d : list (string * value)) : exists q, query (VDict d) = Ok q.
Proof. eexists. reflexivity. Qed.

Lemma bq_failure (run : Runner) (payload context bd : value) :
  business_data_of payload = Ok bd ->
  (forall q, query bd = Ok q -> returns (run q) = false) ->
  agent_invocation run payload context = Ok fallback.
Proof.
  intros Ha Hrun. destruct (bq_adapt_ok _ _ Ha) as (d & -> & ->).
  unfold agent_invocation. rewrite bq_adapt_dict. cbn [bind].
  unfold main. destruct (bq_query_dict (bq_adapted d)) as [q Hq].
  rewrite Hq. cbn [bind].
  specialize (Hrun q Hq). destruct (run q); [discriminate | reflexivity].
Qed.

Lemma bq_success (run : Runner) (payload context bd : value) (q : string)
      (o : UserQueriesOutput) :
  business_data_of payload = Ok bd ->
  query bd = Ok q ->
  run q = Ok o ->
  agent_invocation run payload context = Ok (envelope (model_dump o)).
Proof.
  intros Ha Hq Hrun. destruct (bq_adapt_ok _ _ Ha) as (d & -> & ->).
  unfold agent_invocation. rewrite bq_adapt_dict. cbn [bind].
  unfold main. rewrite Hq. cbn [bind]. rewrite Hrun. reflexivity.
Qed.


End BusinessQueryFacts.

Module ContentGeneratorFacts.
Import ContentGenerator.

Lemma topics_of_prompt_str (t : string) : exists topics,
  topics_of_prompt (VStr t) = Ok topics /\
  (topics = ai_topics \/ topics = sustainable_topics \/ topics = default_topics).
Proof.
  unfold topics_of_prompt. cbn [lower bind].
  destruct (contains "ai" (lower_str t) || contains "artificial intelligence" (lower_str t));
    [|destruct (contains "sustainable" (lower_str t) || contains "green" (lower_str t))];
    eexists; split; try reflexivity; auto.
Qed.

Lemma cg_adapt_shape (payload cd : value) :
  content_data_of payload = Ok cd ->
  exists topics platform, cd = VDict [("topics", topics); ("platform", platform)].
Proof.
  destruct payload; cbn [content_data_of]; try (intros [= <-]; eauto; fail).
  destruct (dict_has "topics" d && dict_has "platform" d).
  - intros [= <-]; eauto.
  - destruct (topics_of_prompt _); cbn [bind]; [|discriminate].
    intros [= <-]; eauto.
Qed.

Lemma cg_query_dict (d : list (string * value)) : exists q, query (VDict d) = Ok q.
Proof. eexists. reflexivity. Qed.

Lemma cg_failure (run : Runner) (payload context cd : value) :
  content_data_of payload = Ok cd ->
  (forall q, query cd = Ok q -> returns (run q) = false) ->
  agent_invocation run payload context = Ok fallback.
Proof.
  intros Ha Hrun. destruct (cg_adapt_shape _ _ Ha) as (t & p & ->).
  unfold agent_invocation. rewrite Ha. cbn [bind].
  unfold main. destruct (cg_query_dict [("topics", t); ("platform", p)]) as [q Hq].
  rewrite Hq. cbn [bind].
  specialize (Hrun q Hq). destruct (run q); [discriminate | reflexivity].
Qed.

Lemma cg_success (run : Runner) (payload context cd : value) (q : string)
      (o : ContentOutput) :
  content_data_of payload = Ok cd ->
  query cd = Ok q ->
  run q = Ok o ->
  agent_invocation run payload context = Ok (envelope (model_dump o)).
Proof.
  intros Ha Hq Hrun. destruct (cg_adapt_shape _ _ Ha) as (t & p & ->).
  unfold agent_invocation. rewrite Ha. cbn [bind].
  unfold main. rewrite Hq. cbn [bind]. rewrite Hrun. reflexivity.
Qed.



End ContentGeneratorFacts.

Module ContentOptimizationFacts.
Import ContentOptimization.

Lemma co_adapt_dict (d : list (string * value)) :
  content_data_of (VDict d) = Ok (VDict (co_adapted d)).
Proof. reflexivity. Qed.

Lemma co_adapt_ok (payload cd : value) :
  content_data_of payload = Ok cd ->
  exists d, payload = VDict d /\ cd = VDict (co_adapted d).
Proof.
  destruct payload; try discriminate.
  rewrite co_adapt_dict. intros [= <-]. now exists d.
Qed.

Lemma co_failure (run : Runner) (payload context cd : value) :
  content_data_of payload = Ok cd ->
  (forall q, query cd = Ok q -> returns (run q) = false) ->
  agent_invocation run payload context = Ok fallback.
Proof.
  intros Ha Hrun. destruct (co_adapt_ok _ _ Ha) as (d & -> & ->).
  unfold agent_invocation. rewrite co_adapt_dict. cbn [bind].
  unfold main. destruct (query (VDict (co_adapted d))) as [q|e] eqn:Hq; cbn [bind].
  - specialize (Hrun q eq_refl). destruct (run q); [discriminate | reflexivity].
  - reflexivity.
Qed.

Lemma co_success (run : Runner) (payload context cd : value) (q : string)
      (o : OptimizedContentOutput) :
  content_data_of payload = Ok cd ->
  query cd = Ok q ->
  run q = Ok o ->
  agent_invocation run payload context = Ok (envelope (VStr (content o))).
Proof.
  intros Ha Hq Hrun. destruct (co_adapt_ok _ _ Ha) as (d & -> & ->).
  unfold agent_invocation. rewrite co_adapt_dict. cbn [bind].
  unfold main. rewrite Hq. cbn [bind]. rewrite Hrun. reflexivity.
Qed.


(** Whatever the runner does, an envelope of this assistant carries a str. *)
Lemma co_result_is_str (run : Runner) (payload context env : value) :
  agent_invocation run payload context = Ok env ->
  exists s, env = envelope (VStr s).
Proof.
  unfold agent_invocation. destruct (content_data_of payload) as [cd|]; [|discriminate].
  cbn [bind]. unfold main.
  destruct (match cd with VNone => sample_content_data | _ => cd end) eqn:E;
    destruct (query _) as [q|]; cbn [bind try_except];
    try (intros [= <-]; eexists; reflexivity);
    destruct (run q); cbn [bind try_except]; intros [= <-]; eexists; reflexivity.
Qed.

End ContentOptimizationFacts.

Module DomainAnalyzerFacts.
Import DomainAnalyzer.

Lemma da_adapt_dict (d : list (string * value)) :
  domain_of (VDict d) = Ok (da_adapted d).
Proof. reflexivity. Qed.

Lemma da_adapt_ok (payload domain : value) :
  domain_of payload = Ok domain ->
  exists d, payload = VDict d /\ domain = da_adapted d.
Proof.
  destruct payload; try discriminate.
  rewrite da_adapt_dict. intros [= <-]. now exists d.
Qed.

Lemma da_failure (run : Runner) (payload context domain : value) :
  domain_of payload = Ok domain ->
  returns (run (query (effective domain))) = false ->
  agent_invocation run payload context = Ok fallback.
Proof.
  intros Ha Hrun. unfold agent_invocation. rewrite Ha. cbn [bind].
  unfold main. fold (effective domain).
  destruct (run (query (effective domain))); [discriminate | reflexivity].
Qed.

Lemma da_success (run : Runner) (payload context domain : value)
      (o : BusinessSummaryOutput) :
  domain_of payload = Ok domain ->
  run (query (effective domain)) = Ok o ->
  agent_invocation run payload context = Ok (envelope (model_dump o)).
Proof.
  intros Ha Hrun. unfold agent_invocation. rewrite Ha. cbn [bind].
  unfold main. fold (effective domain). rewrite Hrun. reflexivity.
Qed.


End DomainAnalyzerFacts.

(** ** The prompts *)

Module PromptFacts.

Lemma bq_prompt_fields (d : list (string * value)) : exists q,
  BusinessQuery.query (VDict d) = Ok q /\
  contains (str (dict_get d "summary" (VStr EmptyString))) q = true /\
  contains (str (dict_get d "goals" (VStr EmptyString))) q = true /\
  contains (str (dict_get d "existingKeywords" (VStr EmptyString))) q = true /\
  contains (str (dict_get d "domain" (VStr EmptyString))) q = true.
Proof.
  eexists. split; [reflexivity|]. repeat split; find_field.
Qed.

Lemma cg_prompt_fields (d : list (string * value)) : exists q,
  ContentGenerator.query (VDict d) = Ok q /\
  contains (str (dict_get d "topics" (VList []))) q = true /\
  contains (str (dict_get d "platform" (VStr "reddit"))) q = true.
Proof.
  eexists. split; [reflexivity|]. repeat split; find_field.
Qed.

Lemma co_prompt_fields (d : list (string * value)) (joined : string) :
  join ", " (dict_get d "topics" (VList [])) = Ok joined ->
  exists q,
    ContentOptimization.query (VDict d) = Ok q /\
    contains (str (dict_get d "title" (VStr EmptyString))) q = true /\
    contains (str (dict_get d "meta" (VStr EmptyString))) q = true /\
    contains joined q = true /\
    contains (str (dict_get d "content" (VStr EmptyString))) q = true.
Proof.
  intros Hj. unfold ContentOptimization.query. rewrite !get_dict. cbn [bind].
  rewrite Hj. cbn [bind].
  eexists. split; [reflexivity|]. repeat split; find_field.
Qed.

(** Without a joinable "topics" value there is no prompt at all. *)
Lemma co_prompt_needs_topics (d : list (string * value)) (q : string) :
  ContentOptimization.query (VDict d) = Ok q ->
  exists joined, join ", " (dict_get d "topics" (VList [])) = Ok joined.
Proof.
  unfold ContentOptimization.query. rewrite !get_dict. cbn [bind].
  destruct (join ", " _) as [j|]; [eauto | discriminate].
Qed.

Lemma da_prompt_field (domain : value) :
  contains (str domain) (DomainAnalyzer.query domain) = true.
Proof. unfold DomainAnalyzer.query. find_field. Qed.

End PromptFacts.

(** ** The topic extraction of the content generator *)

Module SniffingFacts.
Import ContentGenerator ContentGeneratorFacts.

Lemma cg_adapt_prompt (d : list (string * value)) :
  dict_has "topics" d && dict_has "platform" d = false ->
  content_data_of (VDict d) =
    (topics <- topics_of_prompt (fallback_text d) ;;
     Ok (VDict [("topics", topics); ("platform", VStr "reddit")])).
Proof. intros H. cbn [content_data_of]. rewrite H. reflexivity. Qed.

Lemma cg_adapt_direct (d : list (string * value)) :
  dict_has "topics" d && dict_has "platform" d = true ->
  content_data_of (VDict d) =
    Ok (VDict [("topics", dict_get d "topics" (VList []));
               ("platform", dict_get d "platform" (VStr "reddit"))]).
Proof. intros H. cbn [content_data_of]. rewrite H. reflexivity. Qed.

Lemma topics_ai (t : string) :
  contains "ai" (lower_str t) || contains "artificial intelligence" (lower_str t) = true ->
  topics_of_prompt (VStr t) = Ok ai_topics.
Proof. intros H. unfold topics_of_prompt. cbn [lower bind]. now rewrite H. Qed.

Lemma topics_sustainable (t : string) :
  contains "ai" (lower_str t) || contains "artificial intelligence" (lower_str t) = false ->
  contains "sustainable" (lower_str t) || contains "green" (lower_str t) = true ->
  topics_of_prompt (VStr t) = Ok sustainable_topics.
Proof. intros H1 H2. unfold topics_of_prompt. cbn [lower bind]. now rewrite H1, H2. Qed.

Lemma topics_default (t : string) :
  contains "ai" (lower_str t) || contains "artificial intelligence" (lower_str t) = false ->
  contains "sustainable" (lower_str t) || contains "green" (lower_str t) = false ->
  topics_of_prompt (VStr t) = Ok default_topics.
Proof. intros H1 H2. unfold topics_of_prompt. cbn [lower bind]. now rewrite H1, H2. Qed.

(** A text with the word "sustainable" is always taken for an AI text,
    because the test for "ai" comes first and the word has these letters. *)
Lemma topics_sustainable_word (t : string) :
  contains "sustainable" (lower_str t) = true ->
  topics_of_prompt (VStr t) = Ok ai_topics.
Proof.
  intros H. apply topics_ai. now rewrite (sustainable_has_ai _ H).
Qed.

End SniffingFacts.

(** ** Properties of the specification *)

Import BusinessQueryFacts ContentGeneratorFacts ContentOptimizationFacts
       DomainAnalyzerFacts PromptFacts SniffingFacts.

(** C1 (the handler never raises, whatever the payload).  The code does
    not achieve it: each handler adapts the payload before its [try], so
    an exception raised there leaves the handler.  On a JSON array,
    [payload.get] raises [AttributeError] in the business-query,
    domain-analysis and content-optimization handlers; on a mapping whose
    "prompt" is a number, [prompt.lower()] raises it in the
    content-generation handler.  The runner is never reached. *)
Theorem handler_raises_during_adaptation (context : value) :
  (forall run, BusinessQuery.agent_invocation run (VList [VStr "example.com"]) context
               = Raise (AttributeError "'list' object has no attribute 'get'")) /\
  (forall run, DomainAnalyzer.agent_invocation run (VList [VStr "example.com"]) context
               = Raise (AttributeError "'list' object has no attribute 'get'")) /\
  (forall run, ContentOptimization.agent_invocation run (VList [VStr "example.com"]) context
               = Raise (AttributeError "'list' object has no attribute 'get'")) /\
  (forall run, ContentGenerator.agent_invocation run (VDict [("prompt", VInt 5)]) context
               = Raise (AttributeError "'int' object has no attribute 'lower'")).
Proof. repeat split; intros run; reflexivity. Qed.

(** C3 (on a failure of the agent the handler returns the static fallback
    envelope, exactly).  For each assistant: once the payload has been
    adapted, if the runner raises on the prompt rendered from the adapted
    request, the handler returns the assistant's fallback envelope.  For
    domain analysis and the payload [{"domain": "example.com"}] the
    envelope is spelled out. *)
Theorem fallback_on_agent_failure (payload context : value) :
  (forall run bd,
      BusinessQuery.business_data_of payload = Ok bd ->
      (forall q, BusinessQuery.query bd = Ok q -> returns (run q) = false) ->
      BusinessQuery.agent_invocation run payload context = Ok BusinessQuery.fallback) /\
  (forall run cd,
      ContentGenerator.content_data_of payload = Ok cd ->
      (forall q, ContentGenerator.query cd = Ok q -> returns (run q) = false) ->
      ContentGenerator.agent_invocation run payload context = Ok ContentGenerator.fallback) /\
  (forall run cd,
      ContentOptimization.content_data_of payload = Ok cd ->
      (forall q, ContentOptimization.query cd = Ok q -> returns (run q) = false) ->
      ContentOptimization.agent_invocation run payload context
      = Ok ContentOptimization.fallback) /\
  (forall run domain,
      DomainAnalyzer.domain_of payload = Ok domain ->
      returns (run (DomainAnalyzer.query (effective domain))) = false ->
      DomainAnalyzer.agent_invocation run payload context = Ok DomainAnalyzer.fallback) /\
  (forall run,
      returns (run (DomainAnalyzer.query (VStr "example.com"))) = false ->
      DomainAnalyzer.agent_invocation run (VDict [("domain", VStr "example.com")]) context
      = Ok (VDict [("result",
              VDict [("summary", VStr "Error occurred during domain analysis");
                     ("business_type", VStr "Unknown");
                     ("target_audience", VStr "Unknown");
                     ("key_services", VList [VStr "Error"]);
                     ("industry", VStr "Unknown")])])).
Proof.
  split; [|split; [|split; [|split]]].
  - intros run bd. apply bq_failure.
  - intros run cd. apply cg_failure.
  - intros run cd. apply co_failure.
  - intros run domain. apply da_failure.
  - intros run Hrun.
    apply (da_failure run _ context (VStr "example.com")); [reflexivity | exact Hrun].
Qed.

Lemma fallback_on_agent_failure_witness :
  DomainAnalyzer.agent_invocation broken_runner (VDict [("domain", VStr "example.com")]) VNone
  = Ok (VDict [("result",
          VDict [("summary", VStr "Error occurred during domain analysis");
                 ("business_type", VStr "Unknown");
                 ("target_audience", VStr "Unknown");
                 ("key_services", VList [VStr "Error"]);
                 ("industry", VStr "Unknown")])]).
Proof.
  apply (proj2 (proj2 (proj2 (proj2
    (fallback_on_agent_failure (VDict [("domain", VStr "example.com")]) VNone))))).
  reflexivity.
Defined.

(** C4, as the specification states it, fails for content optimization:
    the runner's answer is the model [{content: "# Title"}], and the
    envelope carries the bare string, not that mapping. *)
Lemma optimized_content_is_unwrapped :
  ContentOptimization.agent_invocation
    (fun _ => Ok {| ContentOptimization.content := "# Title" |}) (VDict []) VNone
  <> Ok (envelope (ContentOptimization.model_dump {| ContentOptimization.content := "# Title" |})).
Proof. vm_compute. discriminate. Qed.

(** C4, amended (on success the handler returns the answer in the
    envelope).  For business queries, content generation and domain
    analysis: once the payload has been adapted and the runner has
    answered the rendered prompt with a model [o], the handler returns
    [{"result": o.model_dump()}], every field of [o] as it came.  For
    content optimization the handler returns [{"result": o.content}]: the
    single field is unwrapped and its text is unchanged. *)
Theorem envelope_on_success (payload context : value) :
  (forall run bd q o,
      BusinessQuery.business_data_of payload = Ok bd ->
      BusinessQuery.query bd = Ok q -> run q = Ok o ->
      BusinessQuery.agent_invocation run payload context
      = Ok (VDict [("result",
              VDict [("queries", VList (map VStr (BusinessQuery.queries o)))])])) /\
  (forall run cd q o,
      ContentGenerator.content_data_of payload = Ok cd ->
      ContentGenerator.query cd = Ok q -> run q = Ok o ->
      ContentGenerator.agent_invocation run payload context
      = Ok (VDict [("result",
              VDict [("content", VList (map VStr (ContentGenerator.content o)));
                     ("platform", VStr (ContentGenerator.platform o));
                     ("topics_covered", VList (map VStr (ContentGenerator.topics_covered o)));
                     ("content_type", VStr (ContentGenerator.content_type o))])])) /\
  (forall run domain o,
      DomainAnalyzer.domain_of payload = Ok domain ->
      run (DomainAnalyzer.query (effective domain)) = Ok o ->
      DomainAnalyzer.agent_invocation run payload context
      = Ok (VDict [("result",
              VDict [("summary", VStr (DomainAnalyzer.summary o));
                     ("business_type", VStr (DomainAnalyzer.business_type o));
                     ("target_audience", VStr (DomainAnalyzer.target_audience o));
                     ("key_services", VList (map VStr (DomainAnalyzer.key_services o)));
                     ("industry", VStr (DomainAnalyzer.industry o))])])) /\
  (forall run cd q o,
      ContentOptimization.content_data_of payload = Ok cd ->
      ContentOptimization.query cd = Ok q -> run q = Ok o ->
      ContentOptimization.agent_invocation run payload context
      = Ok (VDict [("result", VStr (ContentOptimization.content o))])).
Proof.
  split; [|split; [|split]].
  - intros run bd q o. apply bq_success.
  - intros run cd q o. apply cg_success.
  - intros run domain o. apply da_success.
  - intros run cd q o. apply co_success.
Qed.

Lemma envelope_on_success_witness :
  BusinessQuery.agent_invocation
    (fun _ => Ok {| BusinessQuery.queries := ["best crm for startups"] |})
    (VDict [("summary", VStr "A CRM")]) VNone
  = Ok (VDict [("result", VDict [("queries", VList [VStr "best crm for startups"])])]).
Proof.
  refine (proj1 (envelope_on_success (VDict [("summary", VStr "A CRM")]) VNone)
            (fun _ => Ok {| BusinessQuery.queries := ["best crm for startups"] |})
            (VDict (bq_adapted [("summary", VStr "A CRM")]))
            _ {| BusinessQuery.queries := ["best crm for startups"] |} _ _ _);
    reflexivity.
Defined.

(** C5 (a successful content optimization yields a plain string).  Once
    the payload has been adapted and the runner has answered the rendered
    prompt with a model [o], the envelope is [{"result": o.content}]: the
    value under "result" is the markdown text itself.  More generally,
    every envelope this handler returns carries a string under "result",
    never a list or a mapping. *)
Theorem optimization_result_is_text
        (run : ContentOptimization.Runner) (payload context cd : value) (q : string)
        (o : ContentOptimization.OptimizedContentOutput) :
  ContentOptimization.content_data_of payload = Ok cd ->
  ContentOptimization.query cd = Ok q ->
  run q = Ok o ->
  ContentOptimization.agent_invocation run payload context
  = Ok (VDict [("result", VStr (ContentOptimization.content o))]) /\
  (forall run' env,
      ContentOptimization.agent_invocation run' payload context = Ok env ->
      exists s, env = VDict [("result", VStr s)]).
Proof.
  intros Ha Hq Hrun. split.
  - exact (co_success run payload context cd q o Ha Hq Hrun).
  - intros run' env. apply co_result_is_str.
Qed.

Lemma optimization_result_is_text_witness :
  ContentOptimization.agent_invocation
    (fun _ => Ok {| ContentOptimization.content := "# Hello" |})
    (VDict [("content", VStr "hello"); ("topics", VList [VStr "greetings"])]) VNone
  = Ok (VDict [("result", VStr "# Hello")]).
Proof.
  refine (proj1 (optimization_result_is_text
            (fun _ => Ok {| ContentOptimization.content := "# Hello" |})
            (VDict [("content", VStr "hello"); ("topics", VList [VStr "greetings"])]) VNone
            (VDict (co_adapted
                      [("content", VStr "hello"); ("topics", VList [VStr "greetings"])]))
            _ {| ContentOptimization.content := "# Hello" |} _ _ _));
    reflexivity.
Defined.

(** C6 (the adapter fills in defaults and never raises).  The second half
    does not hold of the code: three adapters call [payload.get] on
    whatever arrives, which raises [AttributeError] on a JSON array, and
    the content-generation adapter calls [.lower()] on the fallback text,
    which raises on a number.  No request is produced in these cases. *)
Theorem adapter_raises :
  BusinessQuery.business_data_of (VList [VStr "example.com"])
  = Raise (AttributeError "'list' object has no attribute 'get'") /\
  DomainAnalyzer.domain_of (VList [VStr "example.com"])
  = Raise (AttributeError "'list' object has no attribute 'get'") /\
  ContentOptimization.content_data_of (VList [VStr "example.com"])
  = Raise (AttributeError "'list' object has no attribute 'get'") /\
  ContentGenerator.content_data_of (VDict [("prompt", VInt 5)])
  = Raise (AttributeError "'int' object has no attribute 'lower'").
Proof. repeat split. Qed.

(** The half of C6 that the code does satisfy: on a mapping with no
    canonical key at all, each adapter returns the request made of the
    defaults. *)
Lemma adapter_defaults :
  BusinessQuery.business_data_of (VDict [])
  = Ok (VDict [("summary", VStr EmptyString); ("goals", VStr EmptyString);
               ("existingKeywords", VStr EmptyString); ("domain", VStr "example.com")]) /\
  ContentGenerator.content_data_of (VDict [])
  = Ok (VDict [("topics", VList [VStr "technology"; VStr "innovation"]);
               ("platform", VStr "reddit")]) /\
  ContentOptimization.content_data_of (VDict [])
  = Ok (VDict [("content", VStr EmptyString); ("title", VStr EmptyString);
               ("meta", VStr EmptyString); ("topics", VList [])]) /\
  DomainAnalyzer.domain_of (VDict []) = Ok (VStr "example.com").
Proof. repeat split. Qed.

(** C10 (the fallback envelope of the business-query assistant lists
    exactly ten strings under "queries"). *)
Theorem fallback_has_ten_queries :
  exists qs : list string,
    BusinessQuery.fallback = VDict [("result", VDict [("queries", VList (map VStr qs))])] /\
    length qs = 10.
Proof.
  exists ["error"; "occurred"; "during"; "execution"; "check";
          "logs"; "for"; "details"; "about"; "failure"].
  split; reflexivity.
Qed.

(** C2, as the specification states it, fails.  The text "green energy"
    has neither keyword of the claim, yet the topics are
    ["sustainable technology"] and not the default pair: "green" is a
    keyword of the code.  The text "sustainable energy" has the keyword
    "sustainable", yet the topics are ["artificial intelligence"]: the
    code tests for the letters "ai" first. *)
Lemma sniffing_differs_from_claim :
  (ContentGenerator.content_data_of (VDict [("prompt", VStr "green energy")])
   = Ok (VDict [("topics", VList [VStr "sustainable technology"]); ("platform", VStr "reddit")]) /\
   ContentGenerator.content_data_of (VDict [("prompt", VStr "green energy")])
   <> Ok (VDict [("topics", topics_as_specified "green energy"); ("platform", VStr "reddit")])) /\
  (ContentGenerator.content_data_of (VDict [("prompt", VStr "sustainable energy")])
   = Ok (VDict [("topics", VList [VStr "artificial intelligence"]); ("platform", VStr "reddit")]) /\
   ContentGenerator.content_data_of (VDict [("prompt", VStr "sustainable energy")])
   <> Ok (VDict [("topics", topics_as_specified "sustainable energy");
                 ("platform", VStr "reddit")])).
Proof.
  repeat split; try reflexivity; vm_compute; discriminate.
Qed.

(** C2, amended (keyword sniffing of the content generator).  For a
    mapping payload without both "topics" and "platform" whose fallback
    text is a string, the adapter returns a request for "reddit" whose
    topics are: ["artificial intelligence"] if the lowercased text
    contains "artificial intelligence"; ["sustainable technology"] if it
    contains "sustainable" or "green" and neither "ai" nor "artificial
    intelligence"; ["technology", "innovation"] if it contains none of
    "ai", "artificial intelligence", "sustainable" and "green". *)
Theorem keyword_sniffing (d : list (string * value)) (t : string) :
  dict_has "topics" d && dict_has "platform" d = false ->
  fallback_text d = VStr t ->
  exists topics,
    ContentGenerator.content_data_of (VDict d)
    = Ok (VDict [("topics", topics); ("platform", VStr "reddit")]) /\
    (contains "artificial intelligence" (lower_str t) = true ->
     topics = VList [VStr "artificial intelligence"]) /\
    (contains "sustainable" (lower_str t) || contains "green" (lower_str t) = true ->
     contains "ai" (lower_str t) = false ->
     contains "artificial intelligence" (lower_str t) = false ->
     topics = VList [VStr "sustainable technology"]) /\
    (contains "ai" (lower_str t) = false ->
     contains "artificial intelligence" (lower_str t) = false ->
     contains "sustainable" (lower_str t) = false ->
     contains "green" (lower_str t) = false ->
     topics = VList [VStr "technology"; VStr "innovation"]).
Proof.
  intros Hkeys Htext.
  destruct (topics_of_prompt_str t) as (topics & Ht & _).
  exists topics. split.
  - rewrite (cg_adapt_prompt d Hkeys), Htext, Ht. reflexivity.
  - repeat split.
    + intros Hai.
      rewrite topics_ai in Ht by (rewrite Hai; apply orb_true_r).
      now injection Ht as <-.
    + intros Hs Hai Hlong.
      rewrite topics_sustainable in Ht by (try rewrite Hai, Hlong; auto).
      now injection Ht as <-.
    + intros Hai Hlong Hs Hg.
      rewrite topics_default in Ht by (try rewrite Hai, Hlong; try rewrite Hs, Hg; auto).
      now injection Ht as <-.
Qed.

Lemma keyword_sniffing_witness :
  exists topics,
    ContentGenerator.content_data_of (VDict [("prompt", VStr "Green energy")])
    = Ok (VDict [("topics", topics); ("platform", VStr "reddit")]) /\
    topics = VList [VStr "sustainable technology"].
Proof.
  destruct (keyword_sniffing [("prompt", VStr "Green energy")] "Green energy"
              eq_refl eq_refl) as (topics & E & _ & Hs & _).
  exists topics. split; [exact E | apply Hs; reflexivity].
Defined.

(** C9 (without "topics" the platform is "reddit").  For a mapping
    payload that lacks the "topics" key, every request the adapter
    returns has the platform "reddit", whatever the payload says under
    "platform", and the adapter does return one when the fallback text is
    a string.  The payload's platform reaches the request exactly when
    "topics" and "platform" are both present. *)
Theorem platform_needs_topics (d : list (string * value)) :
  (dict_has "topics" d = false ->
   (forall cd, ContentGenerator.content_data_of (VDict d) = Ok cd ->
               exists topics, cd = VDict [("topics", topics); ("platform", VStr "reddit")]) /\
   (forall t, fallback_text d = VStr t ->
              returns (ContentGenerator.content_data_of (VDict d)) = true)) /\
  (forall topics p,
      lookup "topics" d = Some topics -> lookup "platform" d = Some p ->
      ContentGenerator.content_data_of (VDict d)
      = Ok (VDict [("topics", topics); ("platform", p)])).
Proof.
  split.
  - intros Hno.
    assert (Hkeys : dict_has "topics" d && dict_has "platform" d = false)
      by now rewrite Hno.
    rewrite (cg_adapt_prompt d Hkeys). split.
    + intros cd. destruct (ContentGenerator.topics_of_prompt (fallback_text d)) as [topics|];
        cbn [bind]; [|discriminate].
      intros [= <-]. now exists topics.
    + intros t ->. destruct (topics_of_prompt_str t) as (topics & -> & _). reflexivity.
  - intros topics p Ht Hp.
    rewrite cg_adapt_direct.
    + unfold dict_get. now rewrite Ht, Hp.
    + unfold dict_has. now rewrite Ht, Hp.
Qed.

Lemma platform_needs_topics_witness :
  dict_has "topics" [("platform", VStr "twitter"); ("prompt", VStr "hello")] = false /\
  (forall cd,
      ContentGenerator.content_data_of
        (VDict [("platform", VStr "twitter"); ("prompt", VStr "hello")]) = Ok cd ->
      exists topics, cd = VDict [("topics", topics); ("platform", VStr "reddit")]) /\
  returns (ContentGenerator.content_data_of
             (VDict [("platform", VStr "twitter"); ("prompt", VStr "hello")])) = true.
Proof.
  split; [reflexivity|].
  destruct (proj1 (platform_needs_topics
                     [("platform", VStr "twitter"); ("prompt", VStr "hello")]) eq_refl)
    as [Hshape Hreturns].
  split; [exact Hshape | exact (Hreturns "hello" eq_refl)].
Defined.

Lemma agree_get (fields : list string) (d1 d2 : list (string * value))
      (k : string) (default : value) :
  agree fields d1 d2 -> In k fields -> dict_get d1 k default = dict_get d2 k default.
Proof. intros H Hk. unfold dict_get. now rewrite (H k Hk). Qed.

(** Rewrites the lookups of the first request into those of the second. *)
Ltac same_fields H :=
  repeat match goal with
         | |- context [dict_get ?d ?k ?v] =>
             lazymatch type of H with
             | agree _ d _ => rewrite (agree_get _ _ _ k v H) by (simpl; tauto)
             end
         end.

(** C7 (the prompt is a deterministic function of the request fields).
    The prompt of each assistant is a function of the request, and it
    reads nothing but the fields of the assistant's request schema: two
    requests that agree on these fields, and so two identical requests,
    give the same prompt text.  For domain analysis the request is the
    domain itself, and the prompt only depends on how it prints. *)
Theorem prompt_determined_by_request :
  (forall d1 d2,
      agree ["summary"; "goals"; "existingKeywords"; "domain"] d1 d2 ->
      BusinessQuery.query (VDict d1) = BusinessQuery.query (VDict d2)) /\
  (forall d1 d2,
      agree ["topics"; "platform"] d1 d2 ->
      ContentGenerator.query (VDict d1) = ContentGenerator.query (VDict d2)) /\
  (forall d1 d2,
      agree ["content"; "title"; "meta"; "topics"] d1 d2 ->
      ContentOptimization.query (VDict d1) = ContentOptimization.query (VDict d2)) /\
  (forall domain1 domain2,
      str domain1 = str domain2 ->
      DomainAnalyzer.query domain1 = DomainAnalyzer.query domain2).
Proof.
  split; [|split; [|split]].
  - intros d1 d2 H. unfold BusinessQuery.query. rewrite !get_dict. cbn [bind].
    same_fields H. reflexivity.
  - intros d1 d2 H. unfold ContentGenerator.query. rewrite !get_dict. cbn [bind].
    same_fields H. reflexivity.
  - intros d1 d2 H. unfold ContentOptimization.query. rewrite !get_dict. cbn [bind].
    same_fields H. reflexivity.
  - intros domain1 domain2 H. unfold DomainAnalyzer.query. now rewrite H.
Qed.

Lemma prompt_determined_by_request_witness :
  ContentGenerator.query
    (VDict [("topics", VList [VStr "tea"]); ("platform", VStr "blog")])
  = ContentGenerator.query
      (VDict [("trace", VInt 7); ("platform", VStr "blog"); ("topics", VList [VStr "tea"])]).
Proof.
  apply (proj1 (proj2 prompt_determined_by_request)).
  intros k [<-|[<-|[]]]; reflexivity.
Defined.

(** C8 (no request field is dropped from the prompt).  For every request
    mapping, the prompt of each assistant contains what each field of the
    request prints as, the default standing in for an absent field: a
    string field verbatim, the topics of the content generator as the
    printed list, the topics of the content optimizer joined by ", " (a
    prompt exists exactly when they can be joined, as every list of
    strings can). *)
Theorem request_fields_in_prompt :
  (forall d, exists q,
      BusinessQuery.query (VDict d) = Ok q /\
      contains (str (dict_get d "summary" (VStr EmptyString))) q = true /\
      contains (str (dict_get d "goals" (VStr EmptyString))) q = true /\
      contains (str (dict_get d "existingKeywords" (VStr EmptyString))) q = true /\
      contains (str (dict_get d "domain" (VStr EmptyString))) q = true) /\
  (forall d, exists q,
      ContentGenerator.query (VDict d) = Ok q /\
      contains (str (dict_get d "topics" (VList []))) q = true /\
      contains (str (dict_get d "platform" (VStr "reddit"))) q = true) /\
  (forall d joined,
      join ", " (dict_get d "topics" (VList [])) = Ok joined ->
      exists q,
        ContentOptimization.query (VDict d) = Ok q /\
        contains (str (dict_get d "title" (VStr EmptyString))) q = true /\
        contains (str (dict_get d "meta" (VStr EmptyString))) q = true /\
        contains joined q = true /\
        contains (str (dict_get d "content" (VStr EmptyString))) q = true) /\
  (forall domain, contains (str domain) (DomainAnalyzer.query domain) = true) /\
  (forall s, str (VStr s) = s) /\
  (forall l, str (VList l) = "[" ++ join_strs ", " (map repr l) ++ "]") /\
  (forall ss, join ", " (VList (map VStr ss)) = Ok (join_strs ", " ss)).
Proof.
  split; [exact bq_prompt_fields|].
  split; [exact cg_prompt_fields|].
  split; [exact co_prompt_fields|].
  split; [exact da_prompt_field|].
  split; [reflexivity|].
  split; [reflexivity|].
  intros ss. cbn [join]. now rewrite all_strs_map.
Qed.

Lemma request_fields_in_prompt_witness :
  exists q,
    ContentOptimization.query
      (VDict [("title", VStr "Tea"); ("meta", VStr "On tea");
              ("topics", VList [VStr "green"; VStr "black"]); ("content", VStr "Tea is a drink.")])
    = Ok q /\
    contains "Tea" q = true /\ contains "On tea" q = true /\
    contains "green, black" q = true /\ contains "Tea is a drink." q = true.
Proof.
  apply (proj1 (proj2 (proj2 request_fields_in_prompt))
           [("title", VStr "Tea"); ("meta", VStr "On tea");
            ("topics", VList [VStr "green"; VStr "black"]); ("content", VStr "Tea is a drink.")]
           "green, black").
  reflexivity.
Defined.

(** ** Further properties of the handlers *)

Module HandlerFacts.

Lemma bq_main_model (run : BusinessQuery.Runner) (bd : value)
      (r : object BusinessQuery.UserQueriesOutput) :
  BusinessQuery.main run bd = Ok r -> exists o, r = Model o.
Proof.
  unfold BusinessQuery.main. destruct (BusinessQuery.query _) as [q|]; cbn [bind]; [|discriminate].
  destruct (run q); cbn [bind try_except]; [|discriminate].
  intros [= <-]. eauto.
Qed.

Lemma cg_main_model (run : ContentGenerator.Runner) (cd : value)
      (r : object ContentGenerator.ContentOutput) :
  ContentGenerator.main run cd = Ok r -> exists o, r = Model o.
Proof.
  unfold ContentGenerator.main.
  destruct (ContentGenerator.query _) as [q|]; cbn [bind]; [|discriminate].
  destruct (run q); cbn [bind try_except]; [|discriminate].
  intros [= <-]. eauto.
Qed.

Lemma da_main_model (run : DomainAnalyzer.Runner) (domain : value)
      (r : object DomainAnalyzer.BusinessSummaryOutput) :
  DomainAnalyzer.main run domain = Ok r -> exists o, r = Model o.
Proof.
  unfold DomainAnalyzer.main.
  destruct (run _); cbn [bind try_except]; [|discriminate].
  intros [= <-]. eauto.
Qed.

Lemma lower_char_twice (c : ascii) : lower_char (lower_char c) = lower_char c.
Proof. destruct c as [[] [] [] [] [] [] [] []]; reflexivity. Qed.

Lemma lower_str_twice (s : string) : lower_str (lower_str s) = lower_str s.
Proof.
  induction s as [|c s IH]; simpl; [reflexivity|].
  now rewrite lower_char_twice, IH.
Qed.


Lemma agree_sub (fields fields' : list string) (d1 d2 : list (string * value)) :
  agree fields d1 d2 -> (forall k, In k fields' -> In k fields) -> agree fields' d1 d2.
Proof. intros H Hsub k Hk. apply H, Hsub, Hk. Qed.




Lemma fallback_text_agree (d1 d2 : list (string * value)) :
  agree ["prompt"; "domain"] d1 d2 -> fallback_text d1 = fallback_text d2.
Proof. intros H. unfold fallback_text. same_fields H. reflexivity. Qed.


(** The topic extraction with its second test reduced to the word "green". *)
Lemma topics_without_sustainable (t : string) :
  ContentGenerator.topics_of_prompt (VStr t)
  = Ok (if contains "ai" (lower_str t) || contains "artificial intelligence" (lower_str t)
        then ContentGenerator.ai_topics
        else if contains "green" (lower_str t) then ContentGenerator.sustainable_topics
        else ContentGenerator.default_topics).
Proof.
  unfold ContentGenerator.topics_of_prompt. cbn [lower bind].
  destruct (contains "ai" (lower_str t)) eqn:Hai; cbn [orb].
  - reflexivity.
  - destruct (contains "artificial intelligence" (lower_str t)); [reflexivity|].
    destruct (contains "sustainable" (lower_str t)) eqn:Hs.
    + apply sustainable_has_ai in Hs. congruence.
    + cbn [orb]. destruct (contains "green" (lower_str t)); reflexivity.
Qed.

End HandlerFacts.

Import HandlerFacts.




(** X3 (every envelope has the shape of the response schema).  Whatever
    the payload and the runner, an envelope returned by the
    business-query, content-generation or domain-analysis handler is
    [{"result": m.model_dump()}] for some instance [m] of the assistant's
    output model; the fallback envelope is of this shape too, so its
    shape does not tell a failure from an answer. *)
Theorem envelope_has_schema_shape (payload context env : value) :
  (forall run, BusinessQuery.agent_invocation run payload context = Ok env ->
               exists o, env = VDict [("result", BusinessQuery.model_dump o)]) /\
  (forall run, ContentGenerator.agent_invocation run payload context = Ok env ->
               exists o, env = VDict [("result", ContentGenerator.model_dump o)]) /\
  (forall run, DomainAnalyzer.agent_invocation run payload context = Ok env ->
               exists o, env = VDict [("result", DomainAnalyzer.model_dump o)]).
Proof.
  repeat split; intros run.
  - unfold BusinessQuery.agent_invocation.
    destruct (BusinessQuery.business_data_of payload) as [bd|]; cbn [bind]; [|discriminate].
    destruct (BusinessQuery.main run bd) as [r|] eqn:E; cbn [bind try_except].
    + destruct (bq_main_model _ _ _ E) as [o ->]. intros [= <-]. now exists o.
    + intros [= <-].
      now exists {| BusinessQuery.queries :=
                      ["error"; "occurred"; "during"; "execution"; "check";
                       "logs"; "for"; "details"; "about"; "failure"] |}.
  - unfold ContentGenerator.agent_invocation.
    destruct (ContentGenerator.content_data_of payload) as [cd|]; cbn [bind]; [|discriminate].
    destruct (ContentGenerator.main run cd) as [r|] eqn:E; cbn [bind try_except].
    + destruct (cg_main_model _ _ _ E) as [o ->]. intros [= <-]. now exists o.
    + intros [= <-].
      now exists {| ContentGenerator.content := ["Error occurred during content generation"];
                    ContentGenerator.platform := "unknown";
                    ContentGenerator.topics_covered := [];
                    ContentGenerator.content_type := "error" |}.
  - unfold DomainAnalyzer.agent_invocation.
    destruct (DomainAnalyzer.domain_of payload) as [domain|]; cbn [bind]; [|discriminate].
    destruct (DomainAnalyzer.main run domain) as [r|] eqn:E; cbn [bind try_except].
    + destruct (da_main_model _ _ _ E) as [o ->]. intros [= <-]. now exists o.
    + intros [= <-].
      now exists {| DomainAnalyzer.summary := "Error occurred during domain analysis";
                    DomainAnalyzer.business_type := "Unknown";
                    DomainAnalyzer.target_audience := "Unknown";
                    DomainAnalyzer.key_services := ["Error"];
                    DomainAnalyzer.industry := "Unknown" |}.
Qed.

Lemma envelope_has_schema_shape_witness :
  exists o, BusinessQuery.fallback = VDict [("result", BusinessQuery.model_dump o)].
Proof.
  apply (proj1 (envelope_has_schema_shape (VDict []) VNone BusinessQuery.fallback)
           broken_runner).
  reflexivity.
Defined.

(** X4 (adapting twice changes nothing).  A request that the
    business-query, content-generation or content-optimization adapter
    has returned is returned unchanged when it is given to the adapter as
    a payload: payloads of the canonical shape pass through as they are. *)
Theorem adapter_idempotent (payload request : value) :
  (BusinessQuery.business_data_of payload = Ok request ->
   BusinessQuery.business_data_of request = Ok request) /\
  (ContentGenerator.content_data_of payload = Ok request ->
   ContentGenerator.content_data_of request = Ok request) /\
  (ContentOptimization.content_data_of payload = Ok request ->
   ContentOptimization.content_data_of request = Ok request).
Proof.
  repeat split; intros H.
  - destruct (bq_adapt_ok _ _ H) as (d & _ & ->). reflexivity.
  - destruct (cg_adapt_shape _ _ H) as (t & p & ->). reflexivity.
  - destruct (co_adapt_ok _ _ H) as (d & _ & ->). reflexivity.
Qed.

Lemma adapter_idempotent_witness :
  ContentGenerator.content_data_of
    (VDict [("topics", VList [VStr "technology"; VStr "innovation"]);
            ("platform", VStr "reddit")])
  = Ok (VDict [("topics", VList [VStr "technology"; VStr "innovation"]);
               ("platform", VStr "reddit")]).
Proof.
  apply (proj1 (proj2 (adapter_idempotent (VInt 0) _))). reflexivity.
Defined.



(** X6 (where the domain to analyse comes from).  In the domain-analysis
    handler a value under "domain" wins over "prompt"; without "domain"
    the value under "prompt" is analysed; without both, "example.com".
    A "domain" that is [None] is not replaced by the prompt: the handler
    then analyses "example.com", whatever "prompt" holds. *)
Theorem domain_precedence
        (run : DomainAnalyzer.Runner) (d : list (string * value)) (context : value) :
  (forall v, lookup "domain" d = Some v ->
             DomainAnalyzer.agent_invocation run (VDict d) context
             = DomainAnalyzer.agent_invocation run (VDict [("domain", v)]) context) /\
  (forall p, lookup "domain" d = None -> lookup "prompt" d = Some p ->
             DomainAnalyzer.agent_invocation run (VDict d) context
             = DomainAnalyzer.agent_invocation run (VDict [("domain", p)]) context) /\
  (lookup "domain" d = None -> lookup "prompt" d = None ->
   DomainAnalyzer.agent_invocation run (VDict d) context
   = DomainAnalyzer.agent_invocation run (VDict [("domain", VStr "example.com")]) context) /\
  (lookup "domain" d = Some VNone ->
   DomainAnalyzer.agent_invocation run (VDict d) context
   = DomainAnalyzer.agent_invocation run (VDict [("domain", VStr "example.com")]) context).
Proof.
  unfold DomainAnalyzer.agent_invocation. rewrite !da_adapt_dict.
  unfold da_adapted, dict_get. cbn [lookup String.eqb Ascii.eqb Bool.eqb].
  repeat split.
  - intros v ->. reflexivity.
  - intros p -> ->. reflexivity.
  - intros -> ->. reflexivity.
  - intros ->. reflexivity.
Qed.

Lemma domain_precedence_witness :
  DomainAnalyzer.agent_invocation broken_runner
    (VDict [("prompt", VStr "tea.example"); ("domain", VNone)]) VNone
  = DomainAnalyzer.agent_invocation broken_runner
      (VDict [("domain", VStr "example.com")]) VNone.
Proof.
  apply (proj2 (proj2 (proj2 (domain_precedence broken_runner
           [("prompt", VStr "tea.example"); ("domain", VNone)] VNone)))).
  reflexivity.
Defined.

(** X7 (the test for "sustainable" decides nothing).  The topic
    extraction of the content generator gives the same topics as the
    extraction that tests for "ai" or "artificial intelligence" and then
    for "green" alone: a text with the word "sustainable" has the letters
    "ai" and never reaches the second test. *)
Theorem sustainable_test_is_dead (t : string) :
  ContentGenerator.topics_of_prompt (VStr t)
  = Ok (if contains "ai" (lower_str t) || contains "artificial intelligence" (lower_str t)
        then VList [VStr "artificial intelligence"]
        else if contains "green" (lower_str t) then VList [VStr "sustainable technology"]
        else VList [VStr "technology"; VStr "innovation"]).
Proof. apply topics_without_sustainable. Qed.

(** X8 (the word "sustainable" gives the AI topic).  For a mapping
    payload without both "topics" and "platform" whose fallback text is a
    string with the word "sustainable", in any letter case, the request
    has the topics ["artificial intelligence"] and the platform
    "reddit". *)
Theorem sustainable_word_gives_ai (d : list (string * value)) (t : string) :
  dict_has "topics" d && dict_has "platform" d = false ->
  fallback_text d = VStr t ->
  contains "sustainable" (lower_str t) = true ->
  ContentGenerator.content_data_of (VDict d)
  = Ok (VDict [("topics", VList [VStr "artificial intelligence"]);
               ("platform", VStr "reddit")]).
Proof.
  intros Hkeys Htext Hs.
  rewrite (cg_adapt_prompt d Hkeys), Htext, (topics_sustainable_word t Hs). reflexivity.
Qed.

Lemma sustainable_word_gives_ai_witness :
  ContentGenerator.content_data_of (VDict [("prompt", VStr "Sustainable farming")])
  = Ok (VDict [("topics", VList [VStr "artificial intelligence"]);
               ("platform", VStr "reddit")]).
Proof.
  apply (sustainable_word_gives_ai [("prompt", VStr "Sustainable farming")]
           "Sustainable farming"); reflexivity.
Defined.

(** X9 (the topic extraction ignores letter case).  Two texts with the
    same lowercase form give the same topics, and a text gives the same
    topics as its lowercase form. *)
Theorem topic_extraction_ignores_case (t : string) :
  (forall t', lower_str t' = lower_str t ->
              ContentGenerator.topics_of_prompt (VStr t')
              = ContentGenerator.topics_of_prompt (VStr t)) /\
  ContentGenerator.topics_of_prompt (VStr (lower_str t))
  = ContentGenerator.topics_of_prompt (VStr t).
Proof.
  assert (H : forall t', lower_str t' = lower_str t ->
                         ContentGenerator.topics_of_prompt (VStr t')
                         = ContentGenerator.topics_of_prompt (VStr t)).
  { intros t' E. unfold ContentGenerator.topics_of_prompt. cbn [lower bind]. now rewrite E. }
  split; [exact H|]. apply H, lower_str_twice.
Qed.

Lemma topic_extraction_ignores_case_witness :
  ContentGenerator.topics_of_prompt (VStr "GREEN Energy")
  = ContentGenerator.topics_of_prompt (VStr "green energy").
Proof.
  apply (proj1 (topic_extraction_ignores_case "green energy") "GREEN Energy").
  reflexivity.
Defined.

(** X10 (without "platform" the payload's topics are dropped).  For two
    mapping payloads that lack the "platform" key and agree on "prompt"
    and "domain", the content-generation adapter gives the same outcome,
    whatever each holds under "topics": the topics are then read from
    the fallback text alone. *)
Theorem topics_ignored_without_platform (d1 d2 : list (string * value)) :
  dict_has "platform" d1 = false ->
  dict_has "platform" d2 = false ->
  agree ["prompt"; "domain"] d1 d2 ->
  ContentGenerator.content_data_of (VDict d1) = ContentGenerator.content_data_of (VDict d2).
Proof.
  intros H1 H2 H.
  rewrite !cg_adapt_prompt by (rewrite ?H1, ?H2; apply andb_false_r).
  now rewrite (fallback_text_agree _ _ H).
Qed.

Lemma topics_ignored_without_platform_witness :
  ContentGenerator.content_data_of
    (VDict [("topics", VList [VStr "tea"]); ("prompt", VStr "hello")])
  = ContentGenerator.content_data_of (VDict [("prompt", VStr "hello")]).
Proof.
  apply topics_ignored_without_platform; try reflexivity.
  intros k [<-|[<-|[]]]; reflexivity.
Defined.



(** X12 (topics that cannot be joined give the fallback).  When the value
    under "topics" of a content-optimization payload cannot be joined by
    ", " (it is [None], a number or a boolean, or a list with an item
    that is not a string), the handler returns its fallback envelope with
    every runner: no prompt is rendered and the runner is not asked. *)
Theorem unjoinable_topics_give_fallback
        (run : ContentOptimization.Runner) (d : list (string * value)) (context : value)
        (e : exn) :
  join ", " (dict_get d "topics" (VList [])) = Raise e ->
  ContentOptimization.query (VDict (co_adapted d)) = Raise e /\
  ContentOptimization.agent_invocation run (VDict d) context
  = Ok (VDict [("result",
                VStr "Error occurred during content optimization. Please try again.")]).
Proof.
  intros H.
  assert (Hq : ContentOptimization.query (VDict (co_adapted d)) = Raise e).
  { unfold ContentOptimization.query. rewrite !get_dict. cbn [bind].
    change (dict_get (co_adapted d) "topics" (VList []))
      with (dict_get d "topics" (VList [])).
    now rewrite H. }
  split; [exact Hq|].
  unfold ContentOptimization.agent_invocation. rewrite co_adapt_dict. cbn [bind].
  unfold ContentOptimization.main. now rewrite Hq.
Qed.

Lemma unjoinable_topics_give_fallback_witness :
  ContentOptimization.agent_invocation
    (fun _ => Ok {| ContentOptimization.content := "# Tea" |})
    (VDict [("content", VStr "Tea."); ("topics", VList [VStr "tea"; VInt 3])]) VNone
  = Ok (VDict [("result",
                VStr "Error occurred during content optimization. Please try again.")]).
Proof.
  apply (unjoinable_topics_give_fallback
           (fun _ => Ok {| ContentOptimization.content := "# Tea" |})
           [("content", VStr "Tea."); ("topics", VList [VStr "tea"; VInt 3])] VNone
           (TypeError "sequence item: expected str instance")).
  reflexivity.
Defined.

Lemma contains_line (label text stop rest : string) :
  contains (label ++ text ++ stop) (label ++ text ++ stop ++ rest) = true.
Proof.
  rewrite <- (append_assoc text stop rest), <- (append_assoc label (text ++ stop) rest).
  apply contains_here.
Qed.

(** X13 (topics given as one text are split into characters).  When the
    value under "topics" of a content-optimization payload is a string
    instead of a list, the prompt lists its characters one by one,
    separated by ", ", on the "TOPICS:" line. *)
Theorem text_topics_split_into_characters (d : list (string * value)) (s : string) :
  lookup "topics" d = Some (VStr s) ->
  exists q,
    ContentOptimization.query (VDict (co_adapted d)) = Ok q /\
    contains ("TOPICS: " ++ join_strs ", " (chars s) ++ nl) q = true.
Proof.
  intros H. unfold ContentOptimization.query. rewrite !get_dict. cbn [bind].
  change (dict_get (co_adapted d) "topics" (VList []))
    with (dict_get d "topics" (VList [])).
  replace (dict_get d "topics" (VList [])) with (VStr s)
    by (unfold dict_get; now rewrite H).
  cbn [join bind].
  eexists. split; [reflexivity|].
  do 9 apply contains_skip. apply contains_line.
Qed.

Lemma text_topics_split_into_characters_witness :
  exists q,
    ContentOptimization.query (VDict (co_adapted [("topics", VStr "seo")])) = Ok q /\
    contains ("TOPICS: s, e, o" ++ nl) q = true.
Proof.
  apply (text_topics_split_into_characters [("topics", VStr "seo")] "seo").
  reflexivity.
Defined.

(** X14 (a missing key behaves as the key with its default).  With the
    same runner, a business-query payload without "summary", "goals" or
    "existingKeywords" gives the same outcome as the payload with the
    empty string added under that key, and one without "domain" the same
    as with "example.com" added; a content-optimization payload without
    "content", "title" or "meta" gives the same outcome as with the empty
    string added, and one without "topics" as with the empty list. *)
Theorem missing_key_is_its_default (d : list (string * value)) (context : value) :
  (forall k, In k ["summary"; "goals"; "existingKeywords"] -> lookup k d = None ->
     forall run, BusinessQuery.agent_invocation run (VDict d) context
                 = BusinessQuery.agent_invocation run
                     (VDict ((k, VStr EmptyString) :: d)) context) /\
  (lookup "domain" d = None ->
     forall run, BusinessQuery.agent_invocation run (VDict d) context
                 = BusinessQuery.agent_invocation run
                     (VDict (("domain", VStr "example.com") :: d)) context) /\
  (forall k, In k ["content"; "title"; "meta"] -> lookup k d = None ->
     forall run, ContentOptimization.agent_invocation run (VDict d) context
                 = ContentOptimization.agent_invocation run
                     (VDict ((k, VStr EmptyString) :: d)) context) /\
  (lookup "topics" d = None ->
     forall run, ContentOptimization.agent_invocation run (VDict d) context
                 = ContentOptimization.agent_invocation run
                     (VDict (("topics", VList []) :: d)) context).
Proof.
  repeat split.
  - intros k Hk Hno run. unfold BusinessQuery.agent_invocation. rewrite !bq_adapt_dict.
    replace (bq_adapted ((k, VStr EmptyString) :: d)) with (bq_adapted d); [reflexivity|].
    unfold bq_adapted, dict_get.
    destruct Hk as [<-|[<-|[<-|[]]]];
      cbn [lookup String.eqb Ascii.eqb Bool.eqb]; now rewrite Hno.
  - intros Hno run. unfold BusinessQuery.agent_invocation. rewrite !bq_adapt_dict.
    replace (bq_adapted (("domain", VStr "example.com") :: d)) with (bq_adapted d);
      [reflexivity|].
    unfold bq_adapted, dict_get.
    cbn [lookup String.eqb Ascii.eqb Bool.eqb]; now rewrite Hno.
  - intros k Hk Hno run. unfold ContentOptimization.agent_invocation. rewrite !co_adapt_dict.
    replace (co_adapted ((k, VStr EmptyString) :: d)) with (co_adapted d); [reflexivity|].
    unfold co_adapted, dict_get.
    destruct Hk as [<-|[<-|[<-|[]]]];
      cbn [lookup String.eqb Ascii.eqb Bool.eqb]; now rewrite Hno.
  - intros Hno run. unfold ContentOptimization.agent_invocation. rewrite !co_adapt_dict.
    replace (co_adapted (("topics", VList []) :: d)) with (co_adapted d); [reflexivity|].
    unfold co_adapted, dict_get.
    cbn [lookup String.eqb Ascii.eqb Bool.eqb]; now rewrite Hno.
Qed.

Lemma missing_key_is_its_default_witness :
  BusinessQuery.agent_invocation broken_runner (VDict [("summary", VStr "A tea shop")]) VNone
  = BusinessQuery.agent_invocation broken_runner
      (VDict [("domain", VStr "example.com"); ("summary", VStr "A tea shop")]) VNone.
Proof.
  apply (proj1 (proj2 (missing_key_is_its_default [("summary", VStr "A tea shop")] VNone))).
  reflexivity.
Defined.
